(** * vslam_system: the point-cloud stereo VSLAM node

    A shallow embedding of [vslam_system/src/nodes/ptcloud_vslam_node.cpp]:
    the colourised point-cloud export [publishPointclouds] and the two
    callbacks of [StereoVslamNode], [configCb] and [imageCb], together
    with the properties the specification states about them. *)

From Stdlib Require Import Floats ZArith Bool String.
From stdpp Require Import gmap list.

Local Open Scope Z_scope.

(** ** Scalars

    [double] is Rocq's primitive binary64 float.  A [float] field of a PCL
    point holds a binary32 value, kept here as the [spec_float] it denotes. *)

Abbreviation double := PrimFloat.float.
Abbreviation float32 := SpecFloat.spec_float.

(** The implicit narrowing conversion of [cloud.points[i].x = <double>]:
    round to nearest even at 24 bits of precision, exponents up to 128. *)
Definition double_to_float (d : double) : float32 :=
  match Prim2SF d with
  | S754_finite s m e => binary_round 24 128 s m e
  | v => v
  end.

(** ** The map held by the bundle adjuster *)

(** [sba::Proj]: the two flags the export reads.  The frame index of a
    projection is its key in the track's [ProjMap]. *)
Record Proj := mkProj { isValid : bool; useCovar : bool }.

(** [Eigen::Vector4d]: [point(0)], [point(1)], [point(2)], [point(3)]. *)
Record Vector4d := mkVector4d { p0 : double; p1 : double; p2 : double; p3 : double }.

(** [sba::Track]; [ProjMap] is a [std::map<const int, Proj>]. *)
Record Track := mkTrack { point : Vector4d; projections : gmap Z Proj }.

(** [pcl::PointXYZRGB]; [rgb] holds the 32 bits copied into the field. *)
Record PointXYZRGB := mkPointXYZRGB { x : float32; y : float32; z : float32; rgb : Z }.

(** [sensor_msgs::PointCloud2] as published: the frame id of its header and
    the points [pcl::toROSMsg] serialised into it. *)
Record PointCloud2 := mkPointCloud2 { header_frame_id : string; points : list PointXYZRGB }.

(** A [ros::Publisher], as the messages published on it so far. *)
Definition Publisher := list PointCloud2.

Section CloudExport.

Context {Node : Type}.

(** [sba::SysSBA]: the camera nodes and the point tracks. *)
Record SysSBA := mkSysSBA { nodes : list Node; tracks : list Track }.

(** What [resize] puts into a fresh slot of [cloud.points]: the
    value-initialised [pcl::PointXYZRGB], whose declaration belongs to PCL. *)
Context (default_point : PointXYZRGB).

(** *** The scan over the projections of one track (lines 167-177) *)

Definition scan_step (frame : Z) (prj : Proj) (acc : bool * Z) : bool * Z :=
  let '(pointplane, lastframe) := acc in
  if negb (isValid prj) then acc
  else ((if useCovar prj then true else pointplane), Z.max frame lastframe).

Definition scan (prjs : gmap Z Proj) : bool * Z :=
  map_fold scan_step (false, 0) prjs.

(** *** Colour table and packing (lines 183-197) *)

Definition color_of (pointplane : bool) (lastframe : Z) : Z * Z * Z :=
  if negb pointplane then (255, 255, 255)
  else if lastframe =? 1 then (255, 0, 0)
  else if lastframe =? 2 then (0, 255, 0)
  else if lastframe =? 3 then (0, 0, 255)
  else (150, 150, 150).

Definition rgb_packed (c : Z * Z * Z) : Z :=
  let '(r, g, b) := c in
  Z.lor (Z.lor (Z.shiftl r 16) (Z.shiftl g 8)) b.

(** *** The body of the loop for a track that is not skipped *)

Definition export_point (trk : Track) : PointXYZRGB :=
  let '(pointplane, lastframe) := scan (projections trk) in
  {| x := double_to_float (p2 (point trk));
     y := double_to_float (- p0 (point trk))%float;
     z := double_to_float (- p1 (point trk))%float;
     rgb := rgb_packed (color_of pointplane lastframe) |}.

(** *** The loop over the tracks (lines 162-198)

    [sba] is taken by reference and handed on from one iteration to the
    next; [fuel] bounds the number of iterations. *)
Fixpoint export_loop (fuel i : nat) (sba : SysSBA) (cloud : list PointXYZRGB)
  : SysSBA * list PointXYZRGB :=
  match fuel with
  | O => (sba, cloud)
  | S fuel' =>
      match tracks sba !! i with
      | None => (sba, cloud)
      | Some trk =>
          if (size (projections trk) <? 2)%nat
          then export_loop fuel' (S i) sba cloud
          else export_loop fuel' (S i) sba (<[i := export_point trk]> cloud)
      end
  end.

Definition publishPointclouds (sba : SysSBA) (pub : Publisher) : SysSBA * Publisher :=
  let cloud := replicate (length (tracks sba)) default_point in
  let '(sba', cloud') := export_loop (length (tracks sba)) 0 sba cloud in
  let cloud_out := {| header_frame_id := "/pgraph"; points := cloud' |} in
  (sba', pub ++ [cloud_out]).

(** The point list of the message [publishPointclouds] sends. *)
Definition exported (sba : SysSBA) : list PointXYZRGB :=
  match (publishPointclouds sba []).2 with
  | [cloud_out] => points cloud_out
  | _ => []
  end.

(** *** The specification's reading of the scan

    A frame index is valid in a track when the track has a projection at
    that index whose [isValid] flag is set. *)

Definition valid_at (prjs : gmap Z Proj) (frame : Z) : Prop :=
  ∃ prj, prjs !! frame = Some prj ∧ isValid prj = true.

(** "OR over projections of useCovar", invalid projections skipped. *)
Definition spec_pointplane (prjs : gmap Z Proj) : Prop :=
  ∃ frame prj, prjs !! frame = Some prj ∧ isValid prj = true ∧ useCovar prj = true.

(** "MAX over projections of frameIndex (0 if no valid projections)". *)
Definition spec_lastFrame (prjs : gmap Z Proj) (m : Z) : Prop :=
  (valid_at prjs m ∧ ∀ frame, valid_at prjs frame → frame ≤ m)
  ∨ ((∀ frame, ¬ valid_at prjs frame) ∧ m = 0).

(** The entry of a track in the exported list, skipped or not. *)
Definition slot (trk : Track) : PointXYZRGB :=
  if (size (projections trk) <? 2)%nat then default_point else export_point trk.

(** *** The axis change of lines 179-181 as a map on triples of doubles *)

Definition remap (p : double * double * double) : double * double * double :=
  let '(a, b, c) := p in (c, (- a)%float, (- b)%float).

End CloudExport.

Arguments SysSBA : clear implicits.

(** A concrete map for the examples: camera nodes without content, and the
    all-zero point in the slots [resize] creates. *)
Definition zero_point : PointXYZRGB :=
  {| x := S754_zero false; y := S754_zero false; z := S754_zero false; rgb := 0 |}.

Definition origin : Vector4d := {| p0 := 0; p1 := 0; p2 := 0; p3 := 1 |}.

Definition track_of (pos : Vector4d) (prjs : list (Z * Proj)) : Track :=
  {| point := pos; projections := list_to_map prjs |}.

(** One observation only. *)
Definition lonely_track : Track :=
  track_of origin [(0, mkProj true false)].

(** Two valid plain point observations. *)
Definition plain_track : Track :=
  track_of {| p0 := 1; p1 := 2; p2 := 4; p3 := 1 |}
    [(0, mkProj true false); (1, mkProj true false)].

(** Point-plane observations, the latest valid one in frame [last]; the
    observation in frame 7 was discarded. *)
Definition plane_track (last : Z) : Track :=
  track_of origin
    [(0, mkProj true false); (last, mkProj true true); (7, mkProj false true)].

Definition example_sba : SysSBA unit :=
  {| nodes := [tt; tt];
     tracks := [lonely_track; plain_track; plane_track 2; plane_track 5] |}.

(** ** The node and its collaborators *)

(** The C++ exceptions the node can meet: the one it has a handler for,
    and the others. *)
Inductive Exception :=
| CvBridgeException (what : string)
| OtherException (what : string).

(** What a conversion of a message payload ends in. *)
Inductive Try (A : Type) :=
| Returns (a : A)
| Throws (e : Exception).

Arguments Returns {A} a.
Arguments Throws {A} e.

(** What a callback ends in: it returns, an exception leaves it, or it
    dereferences a null pointer. *)
Inductive Result (A : Type) :=
| Ok (a : A)
| Thrown (e : Exception)
| NullDereference.

Arguments Ok {A} a.
Arguments Thrown {A} e.
Arguments NullDereference {A}.

(** [frame_common::CamParams]. *)
Record CamParams := mkCamParams { fx : double; fy : double; cx : double; cy : double; tx : double }.

(** The types and operations the node takes from ROS, OpenCV, PCL and the
    rest of [vslam_system]; none of them is defined in this file of the
    repository. *)
Class Externals := {
  Image : Type;                 (* sensor_msgs::Image *)
  CameraInfo : Type;            (* sensor_msgs::CameraInfo *)
  PointCloud2Msg : Type;        (* the incoming sensor_msgs::PointCloud2 *)
  Mat : Type;                   (* cv::Mat *)
  StereoCameraModel : Type;     (* image_geometry::StereoCameraModel *)
  MapNode : Type;               (* sba::Node *)
  VslamInternals : Type;        (* vo_, place recogniser, descriptor, ... *)
  AnyDetector : Type;           (* vslam_system::AnyDetector *)
  OtherDetector : Type;         (* any other subclass of cv::FeatureDetector *)
  DetectorParams : Type;        (* the detector fields of the config *)
  header_seq : CameraInfo → Z;
  imgMsgToCv : Image → string → Try Mat;
  fromCameraInfo : CameraInfo → CameraInfo → StereoCameraModel → StereoCameraModel;
  left_fx : StereoCameraModel → double;
  left_fy : StereoCameraModel → double;
  left_cx : StereoCameraModel → double;
  left_cy : StereoCameraModel → double;
  baseline : StereoCameraModel → double;
  fromROSMsg : PointCloud2Msg → Try (list PointXYZRGB);
  drawVOtracks : Mat → VslamInternals → Mat → Mat;
  new_AnyDetector : AnyDetector;
  default_PointXYZRGB : PointXYZRGB;
  empty_Mat : Mat;
  new_StereoCameraModel : StereoCameraModel;
}.

Section Node.

Context `{Externals}.

(** The object behind a [cv::Ptr<cv::FeatureDetector>], with its dynamic
    type; [None] is the empty pointer. *)
Inductive FeatureDetector :=
| IsAnyDetector (d : AnyDetector)
| IsOtherDetector (d : OtherDetector).

Definition Ptr_FeatureDetector := option FeatureDetector.

(** The [dynamic_cast] of the raw pointer behind [p] to a pointer to
    [vslam_system::AnyDetector]; [None] is the null pointer. *)
Definition dynamic_cast_AnyDetector (p : Ptr_FeatureDetector) : option AnyDetector :=
  match p with
  | Some (IsAnyDetector d) => Some d
  | _ => None
  end.

(** [vslam_system::StereoVslamNodeConfig]. *)
Record StereoVslamNodeConfig := mkConfig {
  vo_ransac_iterations : Z;
  vo_polish : bool;
  detector_params : DetectorParams;
}.

(** [vslam::VslamSystem], as far as the node reaches into it. *)
Record VslamSystem := mkVslamSystem {
  frame_processor_detector : Ptr_FeatureDetector;
  sba_ : SysSBA MapNode;
  internals : VslamInternals;
}.

(** The members of [VslamSystem] and [AnyDetector] the node calls; their
    bodies are in other files of the repository. *)
Class VslamOps := {
  VslamSystem_ctor : string → string → VslamSystem;
  setFrameDescriptor : string → VslamSystem → VslamSystem;
  setVORansacIt : Z → VslamSystem → VslamSystem;
  setVOPolish : bool → VslamSystem → VslamSystem;
  addFrame : CamParams → Mat → Mat → list PointXYZRGB → VslamSystem → bool * VslamSystem;
  refine : VslamSystem → VslamSystem;
  update : StereoVslamNodeConfig → AnyDetector → AnyDetector;
}.

Context `{VslamOps}.

(** Modelled from the spec: [VslamSystem::addFrame] is not among the sources;
    the specification says of it that acceptance is a one-way transition and
    that rejected frames leave no trace in the map. *)
Definition addFrame_rejection_leaves_no_trace : Prop :=
  ∀ cam_params left right ptcloud vs,
    (addFrame cam_params left right ptcloud vs).1 = false →
    sba_ (addFrame cam_params left right ptcloud vs).2 = sba_ vs.

(** The processing state of [StereoVslamNode]. *)
Record StereoVslamNode := mkNode {
  pointcloud_pub_ : Publisher;
  vo_display_ : Mat;
  cam_model_ : StereoCameraModel;
  vslam_system_ : VslamSystem;
  detector_ : Ptr_FeatureDetector;
}.

Definition set_pointcloud_pub_ (v : Publisher) (n : StereoVslamNode) :=
  mkNode v (vo_display_ n) (cam_model_ n) (vslam_system_ n) (detector_ n).
Definition set_vo_display_ (v : Mat) (n : StereoVslamNode) :=
  mkNode (pointcloud_pub_ n) v (cam_model_ n) (vslam_system_ n) (detector_ n).
Definition set_cam_model_ (v : StereoCameraModel) (n : StereoVslamNode) :=
  mkNode (pointcloud_pub_ n) (vo_display_ n) v (vslam_system_ n) (detector_ n).
Definition set_vslam_system_ (v : VslamSystem) (n : StereoVslamNode) :=
  mkNode (pointcloud_pub_ n) (vo_display_ n) (cam_model_ n) v (detector_ n).
Definition set_detector_ (v : Ptr_FeatureDetector) (n : StereoVslamNode) :=
  mkNode (pointcloud_pub_ n) (vo_display_ n) (cam_model_ n) (vslam_system_ n) v.
Definition set_frame_processor_detector (v : Ptr_FeatureDetector) (vs : VslamSystem) :=
  mkVslamSystem v (sba_ vs) (internals vs).
Definition set_sba_ (v : SysSBA MapNode) (vs : VslamSystem) :=
  mkVslamSystem (frame_processor_detector vs) v (internals vs).

(** What the node does that is visible from outside, in order. *)
Inductive LogMsg :=
| In_callback (seq : Z)
| Conversion_error (what : string)
| Running_large_SBA (size : Z).

Inductive Event :=
| ROS_INFO (msg : LogMsg)
| ROS_ERROR (msg : LogMsg)
| Call_addFrame (cam_params : CamParams) (left right : Mat)
    (ptcloud : list PointXYZRGB) (accepted : bool)
| Call_drawGraph (sba : SysSBA MapNode)
| Publish_vo_tracks (display : Mat) (info : CameraInfo)
| Call_refine.

(** *** A state, trace and exception monad for the callbacks *)

Definition M (A : Type) : Type :=
  StereoVslamNode → StereoVslamNode * list Event * Result A.

Definition ret {A} (a : A) : M A := λ n, (n, [], Ok a).

Definition bind {A B} (m : M A) (k : A → M B) : M B := λ n,
  let '(n1, t1, r1) := m n in
  match r1 with
  | Ok a => let '(n2, t2, r2) := k a n1 in (n2, t1 ++ t2, r2)
  | Thrown e => (n1, t1, Thrown e)
  | NullDereference => (n1, t1, NullDereference)
  end.

Notation "'let*' x ':=' m 'in' k" := (bind m (λ x, k))
  (at level 10, x name, m at level 100, k at level 200).
Notation "m ;; k" := (bind m (λ _, k))
  (at level 100, right associativity).

Definition emit (e : Event) : M unit := λ n, (n, [e], Ok tt).
Definition gets {A} (f : StereoVslamNode → A) : M A := λ n, (n, [], Ok (f n)).
Definition modify (f : StereoVslamNode → StereoVslamNode) : M unit := λ n, (f n, [], Ok tt).
Definition call {A} (r : Try A) : M A := λ n,
  (n, [], match r with Returns a => Ok a | Throws e => Thrown e end).
Definition null_dereference {A} : M A := λ n, (n, [], NullDereference).

(** [try { m } catch (sensor_msgs::CvBridgeException& e) { ... }]: only
    that class of exception is intercepted. *)
Definition try_CvBridge {A} (m : M A) : M (A + string) := λ n,
  let '(n1, t1, r1) := m n in
  match r1 with
  | Ok a => (n1, t1, Ok (inl a))
  | Thrown (CvBridgeException what) => (n1, t1, Ok (inr what))
  | Thrown e => (n1, t1, Thrown e)
  | NullDereference => (n1, t1, NullDereference)
  end.

(** *** [configCb] (lines 91-98) *)

Definition configCb (config : StereoVslamNodeConfig) (level : Z) : M unit :=
  let* p := gets detector_ in
  match dynamic_cast_AnyDetector p with
  | None => null_dereference
  | Some d =>
      modify (set_detector_ (Some (IsAnyDetector (update config d))));;
      modify (λ n, set_vslam_system_
                     (set_frame_processor_detector (detector_ n) (vslam_system_ n)) n);;
      modify (λ n, set_vslam_system_
                     (setVORansacIt (vo_ransac_iterations config) (vslam_system_ n)) n);;
      modify (λ n, set_vslam_system_
                     (setVOPolish (vo_polish config) (vslam_system_ n)) n)
  end.

(** *** [imageCb] (lines 101-153) *)

(** [int size = vslam_system_.sba_.nodes.size()]: a [size_t] stored in a
    32-bit [int]. *)
Definition int_of_size_t (n : nat) : Z :=
  (Z.of_nat n + 2 ^ 31) mod 2 ^ 32 - 2 ^ 31.

Definition LARGE_SBA_INTERVAL : Z := 1.

(** The test of line 148; [%] is C's remainder. *)
Definition refine_due (size : Z) : bool :=
  (1 <? size) && (Z.rem size LARGE_SBA_INTERVAL =? 0).

(** One synchronised delivery, and what [getNumSubscribers] answers for
    the two optional outputs while the callback runs. *)
Record Arrival := mkArrival {
  l_image : Image;
  l_cam_info : CameraInfo;
  r_image : Image;
  r_cam_info : CameraInfo;
  ptcloud_msg : PointCloud2Msg;
  vo_tracks_subscribers : nat;
  pointcloud_subscribers : nat;
}.

Definition vslam_addFrame (cam_params : CamParams) (left right : Mat)
    (ptcloud : list PointXYZRGB) : M bool := λ n,
  let '(accepted, vs) := addFrame cam_params left right ptcloud (vslam_system_ n) in
  (set_vslam_system_ vs n, [Call_addFrame cam_params left right ptcloud accepted], Ok accepted).

Definition vslam_refine : M unit := λ n,
  (set_vslam_system_ (refine (vslam_system_ n)) n, [Call_refine], Ok tt).

Definition node_publishPointclouds : M unit := λ n,
  let '(sba, pub) :=
    publishPointclouds default_PointXYZRGB (sba_ (vslam_system_ n)) (pointcloud_pub_ n) in
  (set_pointcloud_pub_ pub (set_vslam_system_ (set_sba_ sba (vslam_system_ n)) n), [], Ok tt).

Definition when (c : bool) (m : M unit) : M unit := if c then m else ret tt.

(** Lines 121-126. *)
Definition cam_params_of (cam : StereoCameraModel) : CamParams :=
  {| fx := left_fx cam; fy := left_fy cam;
     cx := left_cx cam; cy := left_cy cam; tx := baseline cam |}.

Definition imageCb (a : Arrival) : M unit :=
  emit (ROS_INFO (In_callback (header_seq (l_cam_info a))));;
  let* converted := try_CvBridge
    (let* left := call (imgMsgToCv (l_image a) "mono8") in
     let* right := call (imgMsgToCv (r_image a) "mono8") in
     ret (left, right)) in
  match converted with
  | inr what => emit (ROS_ERROR (Conversion_error what))
  | inl images =>
      let left := images.1 in
      let right := images.2 in
      modify (λ n, set_cam_model_
                     (fromCameraInfo (l_cam_info a) (r_cam_info a) (cam_model_ n)) n);;
      let* cam := gets cam_model_ in
      let cam_params := cam_params_of cam in
      let* ptcloud := call (fromROSMsg (ptcloud_msg a)) in
      let* accepted := vslam_addFrame cam_params left right ptcloud in
      when accepted
        (let* size := gets (λ n, int_of_size_t (length (nodes (sba_ (vslam_system_ n))))) in
         let* sba := gets (λ n, sba_ (vslam_system_ n)) in
         emit (Call_drawGraph sba);;
         when (0 <? vo_tracks_subscribers a)%nat
           (modify (λ n, set_vo_display_
                           (drawVOtracks left (internals (vslam_system_ n)) (vo_display_ n)) n);;
            let* display := gets vo_display_ in
            emit (Publish_vo_tracks display (l_cam_info a)));;
         when (0 <? pointcloud_subscribers a)%nat node_publishPointclouds;;
         when (refine_due size)
           (emit (ROS_INFO (Running_large_SBA size));;
            vslam_refine))
  end.

(** The camera parameters the callback hands to [addFrame] when it runs
    on [a] in state [n]. *)
Definition cam_params_at (a : Arrival) (n : StereoVslamNode) : CamParams :=
  cam_params_of (fromCameraInfo (l_cam_info a) (r_cam_info a) (cam_model_ n)).

(** The trace as the refinement scheduler shows in it: the sequence number
    of each callback, and [None] for each call of [refine]. *)
Definition scheduler_view (t : list Event) : list (option Z) :=
  omap (λ e, match e with
             | ROS_INFO (In_callback seq) => Some (Some seq)
             | Call_refine => Some None
             | _ => None
             end) t.

(** *** The constructor and [ros::spin] (lines 60-89 and 214-215) *)

(** The constructor builds the members, and the reconfigure server calls
    back at once with the configuration it starts from. *)
Definition StereoVslamNode_ctor (vocab_tree_file vocab_weights_file calonder_trees_file : string)
    (startup : StereoVslamNodeConfig) : StereoVslamNode * list Event * Result unit :=
  let members :=
    {| pointcloud_pub_ := [];
       vo_display_ := empty_Mat;
       cam_model_ := new_StereoCameraModel;
       vslam_system_ := VslamSystem_ctor vocab_tree_file vocab_weights_file;
       detector_ := Some (IsAnyDetector new_AnyDetector) |} in
  (modify (λ n, set_vslam_system_
                  (setFrameDescriptor calonder_trees_file (vslam_system_ n)) n);;
   configCb startup (2 ^ 32 - 1)) members.

(** The callbacks [ros::spin] dispatches, one at a time, each to its end. *)
Inductive Callback :=
| Image_callback (a : Arrival)
| Config_callback (config : StereoVslamNodeConfig) (level : Z).

Definition dispatch (cb : Callback) : M unit :=
  match cb with
  | Image_callback a => imageCb a
  | Config_callback config level => configCb config level
  end.

Fixpoint spin (queue : list Callback) : M unit :=
  match queue with
  | [] => ret tt
  | cb :: queue' => dispatch cb;; spin queue'
  end.

End Node.

(** ** A small world to run the node in

    Images and clouds say of themselves whether they decode; the map gains
    one node for every frame with a non-empty cloud and rejects the frames
    with an empty one. *)

Definition demo_externals : Externals :=
  {| Image := bool;
     CameraInfo := Z;
     PointCloud2Msg := option (list PointXYZRGB);
     Mat := unit;
     StereoCameraModel := unit;
     MapNode := unit;
     VslamInternals := unit;
     AnyDetector := unit;
     OtherDetector := unit;
     DetectorParams := unit;
     header_seq := λ seq, seq;
     imgMsgToCv := λ img _,
       if img then Returns tt else Throws (CvBridgeException "bad encoding");
     fromCameraInfo := λ _ _ cam, cam;
     left_fx := λ _, 1%float;
     left_fy := λ _, 1%float;
     left_cx := λ _, 0%float;
     left_cy := λ _, 0%float;
     baseline := λ _, 1%float;
     fromROSMsg := λ msg,
       match msg with
       | Some cloud => Returns cloud
       | None => Throws (OtherException "bad fields")
       end;
     drawVOtracks := λ _ _ display, display;
     new_AnyDetector := tt;
     default_PointXYZRGB := zero_point;
     empty_Mat := tt;
     new_StereoCameraModel := tt |}.

Definition demo_ops : @VslamOps demo_externals :=
  {| VslamSystem_ctor := λ _ _,
       @mkVslamSystem demo_externals None {| nodes := []; tracks := [] |} tt;
     setFrameDescriptor := λ _ vs, vs;
     setVORansacIt := λ _ vs, vs;
     setVOPolish := λ _ vs, vs;
     addFrame := λ _ _ _ ptcloud vs,
       match ptcloud with
       | [] => (false, vs)
       | _ =>
           (true,
            @set_sba_ demo_externals
              {| nodes := nodes (@sba_ demo_externals vs) ++ [tt];
                 tracks := tracks (@sba_ demo_externals vs) |} vs)
       end;
     refine := λ vs, vs;
     update := λ _ d, d |}.

Section Demo.

#[local] Existing Instance demo_externals.
#[local] Existing Instance demo_ops.

Definition demo_config : StereoVslamNodeConfig :=
  {| vo_ransac_iterations := 100; vo_polish := true; detector_params := tt |}.

Definition demo_mat : @Mat demo_externals := tt.

(** The node after its constructor. *)
Definition demo_node : StereoVslamNode :=
  (StereoVslamNode_ctor "tree" "weights" "calonder" demo_config).1.1.

(** A frame that is fused, a frame that is rejected, a frame whose right
    image does not decode and a frame whose cloud does not decode. *)
Definition good_arrival (seq : Z) : Arrival :=
  mkArrival true seq true seq (Some [zero_point]) 0 1.
Definition empty_arrival (seq : Z) : Arrival :=
  mkArrival true seq true seq (Some []) 0 1.
Definition bad_image_arrival (seq : Z) : Arrival :=
  mkArrival true seq false seq (Some [zero_point]) 0 1.
Definition bad_cloud_arrival (seq : Z) : Arrival :=
  mkArrival true seq true seq None 0 1.

(** The node after [k] frames have been fused. *)
Definition demo_node_after (k : nat) : StereoVslamNode :=
  (spin (Image_callback ∘ good_arrival ∘ Z.of_nat <$> seq 1 k) demo_node).1.1.

End Demo.

(** ** [main] (lines 207-216) *)

Section Program.

Context `{Externals} `{!VslamOps}.

(** [ros::init(argc, argv, name)]: the arguments that are left once ROS
    has taken its own out of them. *)
Context (ros_init : list string → string → list string).

(** How the process ends: [main] returns a status, an exception leaves
    it, or it dereferences a null pointer. *)
Inductive Exit :=
| Exit_status (status : Z)
| Exit_exception (e : Exception)
| Exit_null_dereference.

(** What a run of the program shows: the lines it printed, the events of
    its node and its end. *)
Record Run := mkRun { stdout : list string; trace : list Event; exit : Exit }.

Definition newline : string := String (Ascii.ascii_of_nat 10) EmptyString.

(** The [printf] of line 210. *)
Definition usage (prog : string) : string :=
  String.append "Usage: "
    (String.append prog
       (String.append " <vocab tree file> <vocab weights file> <calonder trees file>"
          newline)).

Definition exit_of (r : Result unit) : Exit :=
  match r with
  | Ok _ => Exit_status 0
  | Thrown e => Exit_exception e
  | NullDereference => Exit_null_dereference
  end.

(** [main]; [startup] is the configuration the reconfigure server starts
    from and [queue] the callbacks [ros::spin] dispatches before it
    returns.  [argv[k]] for [k] up to [argc - 1] is an argument, and
    [argv[argc]] is the null pointer. *)
Definition main (argv : list string) (startup : StereoVslamNodeConfig)
    (queue : list Callback) : Run :=
  let argv := ros_init argv "stereo_vslam" in
  if (length argv <? 4)%nat then
    match argv !! 0%nat with
    | Some prog => mkRun [usage prog] [] (Exit_status 1)
    | None => mkRun [] [] Exit_null_dereference
    end
  else
    match argv !! 1%nat, argv !! 2%nat, argv !! 3%nat with
    | Some vocab_tree_file, Some vocab_weights_file, Some calonder_trees_file =>
        let '(vslam, t, r) :=
          StereoVslamNode_ctor vocab_tree_file vocab_weights_file calonder_trees_file
            startup in
        match r with
        | Ok _ => let '(_, t', r') := spin queue vslam in mkRun [] (t ++ t') (exit_of r')
        | _ => mkRun [] t (exit_of r)
        end
    | _, _, _ => mkRun [] [] Exit_null_dereference
    end.

End Program.

(** ** Counting calls in a trace *)

Section Counting.

Context `{Externals}.

Definition is_addFrame (e : Event) : bool :=
  match e with Call_addFrame _ _ _ _ _ => true | _ => false end.

Definition is_accepted (e : Event) : bool :=
  match e with Call_addFrame _ _ _ _ accepted => accepted | _ => false end.

Definition is_refine (e : Event) : bool :=
  match e with Call_refine => true | _ => false end.

Definition is_image_callback (cb : Callback) : bool :=
  match cb with Image_callback _ => true | Config_callback _ _ => false end.

(** How many of the events of [t], or callbacks of a queue, pass [f]. *)
Definition tally {A} (f : A → bool) (t : list A) : nat :=
  length (filter (λ e, f e = true) t).

End Counting.

(** [ros::init] with nothing of its own among the arguments. *)
Definition demo_ros_init (argv : list string) (name : string) : list string := argv.

(** * Properties *)

(** ** The scan, the colour table and the loop *)

Section CloudExportFacts.

Context {Node : Type} (default_point : PointXYZRGB).

Implicit Types (prjs : gmap Z Proj) (sba : SysSBA Node) (cloud : list PointXYZRGB).

Lemma valid_at_insert prjs i prj frame :
  prjs !! i = None →
  valid_at (<[i := prj]> prjs) frame ↔
  (frame = i ∧ isValid prj = true) ∨ valid_at prjs frame.
Proof.
  intros Hi. unfold valid_at. split.
  - intros (q & Hq & Hv). destruct (decide (i = frame)) as [->|Hne].
    + rewrite lookup_insert_eq in Hq. left. split; congruence.
    + rewrite lookup_insert_ne in Hq by done. right. eauto.
  - intros [[-> Hv] | (q & Hq & Hv)].
    + exists prj. by rewrite lookup_insert_eq.
    + exists q. split; [|done]. rewrite lookup_insert_ne; [done|congruence].
Qed.

Lemma spec_pointplane_insert prjs i prj :
  prjs !! i = None →
  spec_pointplane (<[i := prj]> prjs) ↔
  (isValid prj = true ∧ useCovar prj = true) ∨ spec_pointplane prjs.
Proof.
  intros Hi. unfold spec_pointplane. split.
  - intros (f & q & Hq & Hv & Hc). destruct (decide (i = f)) as [->|Hne].
    + rewrite lookup_insert_eq in Hq. left. split; congruence.
    + rewrite lookup_insert_ne in Hq by done. right. eauto.
  - intros [[Hv Hc] | (f & q & Hq & Hv & Hc)].
    + exists i, prj. by rewrite lookup_insert_eq.
    + exists f, q. split; [|done]. rewrite lookup_insert_ne; [done|congruence].
Qed.

Lemma spec_lastFrame_insert prjs i prj m :
  prjs !! i = None →
  spec_lastFrame prjs m →
  ∃ m', spec_lastFrame (<[i := prj]> prjs) m'
        ∧ Z.max 0 m' = if isValid prj then Z.max i (Z.max 0 m) else Z.max 0 m.
Proof.
  intros Hi Hm. unfold spec_lastFrame.
  destruct (isValid prj) eqn:Hv.
  - destruct Hm as [[Hval Hub] | [Hnone ->]].
    + exists (Z.max i m). split; [left; split|lia].
      * apply valid_at_insert; [done|].
        destruct (Z.max_spec i m) as [[_ ->] | [_ ->]]; [by right | by left].
      * intros f Hf. apply (valid_at_insert _ _ _ _ Hi) in Hf as [[-> _] | Hf]; [lia|].
        specialize (Hub f Hf). lia.
    + exists i. split; [left; split|lia].
      * apply valid_at_insert; [done|]. by left.
      * intros f Hf. apply (valid_at_insert _ _ _ _ Hi) in Hf as [[-> _] | Hf]; [lia|].
        by destruct (Hnone f).
  - exists m. split; [|done].
    destruct Hm as [[Hval Hub] | [Hnone ->]].
    + left. split.
      * apply valid_at_insert; [done|]. by right.
      * intros f Hf. apply (valid_at_insert _ _ _ _ Hi) in Hf as [[_ ?] | Hf]; [congruence|]. auto.
    + right. split; [|done]. intros f Hf.
      apply (valid_at_insert _ _ _ _ Hi) in Hf as [[_ ?] | Hf]; [congruence|]. by eapply Hnone.
Qed.

(** What the scan of lines 167-177 computes, for any track. *)
Lemma scan_spec prjs :
  ∃ pointplane m,
    scan prjs = (pointplane, Z.max 0 m)
    ∧ (pointplane = true ↔ spec_pointplane prjs)
    ∧ spec_lastFrame prjs m.
Proof.
  unfold scan.
  apply (map_fold_weak_ind (λ r prjs, ∃ pointplane m,
    r = (pointplane, Z.max 0 m)
    ∧ (pointplane = true ↔ spec_pointplane prjs)
    ∧ spec_lastFrame prjs m)).
  - exists false, 0. split; [done|]. split.
    + split; [done|]. intros (f & q & Hq & _). by rewrite lookup_empty in Hq.
    + right. split; [|done]. intros f (q & Hq & _). by rewrite lookup_empty in Hq.
  - intros i prj m r Hi (pp & mx & -> & Hpp & Hmx).
    destruct (spec_lastFrame_insert _ _ prj _ Hi Hmx) as (m' & Hm' & Heq).
    unfold scan_step. destruct (isValid prj) eqn:Hv; simpl.
    + exists (if useCovar prj then true else pp), m'.
      split; [by rewrite Heq|]. split; [|done].
      rewrite spec_pointplane_insert by done.
      destruct (useCovar prj); intuition congruence.
    + exists pp, m'. split; [by rewrite Heq|]. split; [|done].
      rewrite spec_pointplane_insert by done. intuition congruence.
Qed.

(** [std::map] hands out the projections by ascending frame index.  The
    scan commutes over its steps, so the loop of lines 170-177 arrives at
    [scan] in that order as in any other. *)
Lemma scan_step_comm k1 q1 k2 q2 acc :
  scan_step k1 q1 (scan_step k2 q2 acc) = scan_step k2 q2 (scan_step k1 q1 acc).
Proof.
  destruct acc as [pp lf]. unfold scan_step.
  destruct (isValid q1), (isValid q2), (useCovar q1), (useCovar q2);
    simpl; f_equal; lia.
Qed.

Lemma scan_loop_foldr (visit : list (Z * Proj)) : ∀ acc,
  foldl (λ acc e, scan_step e.1 e.2 acc) acc visit
  = foldr (uncurry scan_step) acc visit.
Proof.
  induction visit as [|[k q] visit IH]; intros acc; simpl; [done|].
  rewrite IH. clear IH. revert acc.
  induction visit as [|[k' q'] visit IH]; intros acc; simpl; [done|].
  by rewrite IH, scan_step_comm.
Qed.

Lemma scan_any_order prjs (visit : list (Z * Proj)) :
  visit ≡ₚ map_to_list prjs →
  foldl (λ acc e, scan_step e.1 e.2 acc) (false, 0) visit = scan prjs.
Proof.
  intros Hperm. unfold scan. rewrite scan_loop_foldr, map_fold_foldr.
  apply (foldr_permutation (=) (uncurry scan_step)); [solve_proper| |done].
  intros _ [k1 q1] _ [k2 q2] acc _ _ _. apply scan_step_comm.
Qed.

(** The running maximum starts at 0; the colour table cannot tell. *)
Lemma color_of_floor pointplane m :
  color_of pointplane (Z.max 0 m) = color_of pointplane m.
Proof.
  unfold color_of. destruct pointplane; simpl; [|done].
  destruct (Z.max_spec 0 m) as [[? ->] | [? ->]]; [done|].
  by rewrite !(proj2 (Z.eqb_neq _ _)) by lia.
Qed.

(** The loop visits every index from [i] on, hands [sba] back as it got
    it, and writes the slots of the tracks it does not skip. *)
Lemma export_loop_spec fuel : ∀ i sba cloud,
  (i + fuel)%nat = length (tracks sba) →
  ∃ cloud',
    export_loop fuel i sba cloud = (sba, cloud')
    ∧ length cloud' = length cloud
    ∧ ∀ j trk p, tracks sba !! j = Some trk → cloud !! j = Some p →
        cloud' !! j =
          Some (if (j <? i)%nat || (size (projections trk) <? 2)%nat
                then p else export_point trk).
Proof.
  induction fuel as [|fuel IH]; intros i sba cloud Hlen; simpl.
  - exists cloud. split; [done|]. split; [done|].
    intros j trk p Hj Hp. apply lookup_lt_Some in Hj.
    by rewrite (proj2 (Nat.ltb_lt j i)) by lia.
  - destruct (lookup_lt_is_Some_2 (tracks sba) i) as [ti Hti]; [lia|].
    rewrite Hti.
    destruct (size (projections ti) <? 2)%nat eqn:Hskip.
    + destruct (IH (S i) sba cloud) as (cloud' & Hrun & Hlen' & Hget); [lia|].
      exists cloud'. split; [done|]. split; [done|].
      intros j trk p Hj Hp. rewrite (Hget j trk p Hj Hp). f_equal.
      destruct (decide (j = i)) as [->|Hne].
      * replace trk with ti by congruence. rewrite Hskip.
        by rewrite Nat.ltb_irrefl, (proj2 (Nat.ltb_lt i (S i))) by lia.
      * destruct (Nat.ltb_spec j i), (Nat.ltb_spec j (S i)); (done || lia).
    + destruct (IH (S i) sba (<[i := export_point ti]> cloud))
        as (cloud' & Hrun & Hlen' & Hget); [lia|].
      exists cloud'. split; [done|].
      split; [by rewrite Hlen', length_insert|].
      intros j trk p Hj Hp.
      destruct (decide (j = i)) as [->|Hne].
      * replace trk with ti by congruence.
        rewrite (Hget i ti (export_point ti) Hti).
        -- by rewrite Hskip, Nat.ltb_irrefl, (proj2 (Nat.ltb_lt i (S i))) by lia.
        -- apply list_lookup_insert_eq. by eapply lookup_lt_Some.
      * rewrite (Hget j trk p Hj) by (by rewrite list_lookup_insert_ne).
        f_equal.
        destruct (Nat.ltb_spec j i), (Nat.ltb_spec j (S i)); (done || lia).
Qed.

(** [publishPointclouds] in closed form. *)
Lemma publishPointclouds_eq sba (pub : Publisher) :
  publishPointclouds default_point sba pub =
    (sba, pub ++ [ {| header_frame_id := "/pgraph";
                      points := slot default_point <$> tracks sba |} ]).
Proof.
  unfold publishPointclouds.
  destruct (export_loop_spec (length (tracks sba)) 0 sba
              (replicate (length (tracks sba)) default_point))
    as (cloud' & -> & Hlen & Hget); [done|].
  rewrite length_replicate in Hlen.
  cut (cloud' = slot default_point <$> tracks sba); [by intros ->|].
  apply list_eq. intros j.
  rewrite list_lookup_fmap.
  destruct (tracks sba !! j) as [trk|] eqn:Hj; simpl.
  - rewrite (Hget j trk default_point Hj).
    + done.
    + apply lookup_replicate_2. by eapply lookup_lt_Some.
  - apply lookup_ge_None. apply lookup_ge_None in Hj. lia.
Qed.

Lemma exported_eq sba :
  exported default_point sba = slot default_point <$> tracks sba.
Proof. unfold exported. by rewrite publishPointclouds_eq. Qed.

Lemma exported_lookup sba i trk :
  tracks sba !! i = Some trk →
  exported default_point sba !! i = Some (slot default_point trk).
Proof. intros Hi. by rewrite exported_eq, list_lookup_fmap, Hi. Qed.

(** A track with fewer than two projections is skipped, a track with two
    or more is written. *)
Lemma slot_skipped trk :
  (size (projections trk) < 2)%nat → slot default_point trk = default_point.
Proof. intros Hlt. unfold slot. by rewrite (proj2 (Nat.ltb_lt _ _) Hlt). Qed.

Lemma slot_retained trk :
  (2 ≤ size (projections trk))%nat → slot default_point trk = export_point trk.
Proof. intros Hge. unfold slot. by rewrite (proj2 (Nat.ltb_ge _ _) Hge). Qed.

(** C2 (as amended): the exported list has one entry per track of the map,
    in the order of the tracks; the entry of a track with at least two
    projections is the point computed from that track, and a track with
    fewer is skipped by the loop, so that its entry stays as [resize]
    made it. *)
Theorem export_entry_per_track sba :
  length (exported default_point sba) = length (tracks sba)
  ∧ ∀ i trk, tracks sba !! i = Some trk →
      exported default_point sba !! i =
        Some (if decide (2 ≤ size (projections trk))%nat
              then export_point trk else default_point).
Proof.
  split.
  - by rewrite exported_eq, length_fmap.
  - intros i trk Hi. rewrite (exported_lookup _ _ _ Hi). f_equal.
    case_decide.
    + by apply slot_retained.
    + apply slot_skipped. lia.
Qed.

(** C3: for a track that is not skipped, the scan that leaves out the
    projections with [isValid = false] yields [pointplane], the OR of
    [useCovar], and [lastFrame], the maximum of the frame indices, 0 when
    no projection is valid (the running maximum of the loop starts at 0:
    it is the maximum itself as soon as the frame indices are not
    negative); the colour of the exported point is the ordered lookup on
    these two values: white without [pointplane], red, green and blue for
    a last frame of 1, 2 and 3, gray otherwise; and it is stored packed
    as [(r << 16) | (g << 8) | b]. *)
Theorem export_color_of_retained_track sba i trk :
  tracks sba !! i = Some trk →
  (2 ≤ size (projections trk))%nat →
  ∃ pointplane lastFrame r g b p,
    (pointplane = true ↔ spec_pointplane (projections trk))
    ∧ spec_lastFrame (projections trk) lastFrame
    ∧ scan (projections trk) = (pointplane, Z.max 0 lastFrame)
    ∧ ((∀ frame, valid_at (projections trk) frame → 0 ≤ frame) →
       scan (projections trk) = (pointplane, lastFrame))
    ∧ (r, g, b) =
        (if negb pointplane then (255, 255, 255)
         else if lastFrame =? 1 then (255, 0, 0)
         else if lastFrame =? 2 then (0, 255, 0)
         else if lastFrame =? 3 then (0, 0, 255)
         else (150, 150, 150))
    ∧ exported default_point sba !! i = Some p
    ∧ rgb p = Z.lor (Z.lor (Z.shiftl r 16) (Z.shiftl g 8)) b.
Proof.
  intros Hi Hge.
  destruct (scan_spec (projections trk)) as (pp & m & Hscan & Hpp & Hm).
  destruct (color_of pp m) as [[r g] b] eqn:Hc.
  exists pp, m, r, g, b, (export_point trk).
  split; [done|]. split; [done|]. split; [done|].
  split.
  { intros Hpos. rewrite Hscan. f_equal.
    destruct Hm as [[Hval _] | [_ ->]]; [|done].
    specialize (Hpos m Hval). lia. }
  split; [by rewrite <- Hc|].
  split; [by rewrite (exported_lookup _ _ _ Hi), slot_retained|].
  unfold export_point. rewrite Hscan. simpl.
  by rewrite color_of_floor, Hc.
Qed.

(** Negation of a double is an involution. *)
Lemma opp_involutive (d : double) : (- - d)%float = d.
Proof.
  rewrite <- (SF2Prim_Prim2SF (- - d)), !opp_spec.
  rewrite <- (SF2Prim_Prim2SF d) at 2. f_equal.
  by destruct (Prim2SF d) as [[]|[]| |[]].
Qed.

(** C4 (as amended): the position of an exported point is the position of
    its track taken through [(x, y, z) -> (z, -x, -y)]; this map is of
    order three: applied twice it yields [(-y, -z, x)], and applied three
    times it yields [(x, y, z)] again. *)
Theorem export_remap_order_three :
  (∀ trk,
     let '(ex, ey, ez) := remap (p0 (point trk), p1 (point trk), p2 (point trk)) in
     x (export_point trk) = double_to_float ex
     ∧ y (export_point trk) = double_to_float ey
     ∧ z (export_point trk) = double_to_float ez)
  ∧ (∀ a b c, remap (a, b, c) = (c, - a, - b)%float)
  ∧ (∀ a b c, remap (remap (a, b, c)) = (- b, - c, a)%float)
  ∧ (∀ p, remap (remap (remap p)) = p).
Proof.
  split; [|split; [|split]].
  - intros trk. unfold export_point.
    by destruct (scan (projections trk)).
  - done.
  - intros a b c. simpl. by rewrite opp_involutive.
  - intros [[a b] c]. simpl. by rewrite !opp_involutive.
Qed.

(** C7: the export hands back the map it was given: the tracks, their
    projections and the nodes are what they were before the call. *)
Theorem publishPointclouds_read_only sba (pub : Publisher) :
  (publishPointclouds default_point sba pub).1 = sba
  ∧ tracks (publishPointclouds default_point sba pub).1 = tracks sba
  ∧ nodes (publishPointclouds default_point sba pub).1 = nodes sba.
Proof. by rewrite publishPointclouds_eq. Qed.

(** C9: the cloud that is published has as many entries as the map has
    tracks, and a track with fewer than two projections keeps its index:
    its entry is the value [resize] put there. *)
Theorem published_cloud_is_index_aligned sba (pub : Publisher) :
  ∃ cloud_out,
    (publishPointclouds default_point sba pub).2 = pub ++ [cloud_out]
    ∧ header_frame_id cloud_out = "/pgraph"%string
    ∧ length (points cloud_out) = length (tracks sba)
    ∧ ∀ i trk, tracks sba !! i = Some trk →
        (size (projections trk) < 2)%nat →
        points cloud_out !! i = Some default_point.
Proof.
  rewrite publishPointclouds_eq. eexists. split; [done|]. simpl.
  split; [done|]. split; [by rewrite length_fmap|].
  intros i trk Hi Hlt. rewrite list_lookup_fmap, Hi. simpl.
  by rewrite slot_skipped.
Qed.

End CloudExportFacts.

(** ** The export on the example map *)

(** The four cases of the extraction: a track seen once is left as it
    was, two plain observations give white, point-plane observations last
    seen in frame 2 give green, and last seen in frame 5 give gray. *)
Example exported_example :
  rgb <$> exported zero_point example_sba = [0; 0xFFFFFF; 0x00FF00; 0x969696].
Proof. vm_compute. reflexivity. Qed.

Example scan_plane_track : scan (projections (plane_track 5)) = (true, 5).
Proof. vm_compute. reflexivity. Qed.

(** C2, as stated, fails: the map of one track with a single projection
    has no track with two projections, and its export has one entry. *)
Lemma export_keeps_skipped_tracks :
  let sba : SysSBA unit := {| nodes := []; tracks := [lonely_track] |} in
  filter (λ trk, 2 ≤ size (projections trk))%nat (tracks sba) = []
  ∧ exported zero_point sba = [zero_point].
Proof. vm_compute. done. Qed.

Lemma export_color_of_retained_track_witness :
  ∃ p, exported zero_point example_sba !! 2%nat = Some p ∧ rgb p = 0x00FF00.
Proof.
  destruct (export_color_of_retained_track zero_point example_sba 2 (plane_track 2))
    as (pp & m & r & g & b & p & _ & Hm & Hscan & _ & Hc & Hp & Hrgb).
  - reflexivity.
  - vm_compute. lia.
  - exists p. split; [exact Hp|].
    assert (scan (projections (plane_track 2)) = (true, 2)) as Hrun
      by (vm_compute; reflexivity).
    rewrite Hrun in Hscan. injection Hscan as <- Hmax.
    assert (m = 2) as -> by lia.
    simpl in Hc. injection Hc as -> -> ->. exact Hrgb.
Defined.

(** C4, as stated, fails: the axis change applied twice does not give the
    point back. *)
Lemma remap_twice_is_not_identity :
  remap (remap (1, 0, 0)%float) ≠ (1, 0, 0)%float.
Proof.
  intros Heq. apply (f_equal (λ p, Prim2SF p.2)) in Heq.
  vm_compute in Heq. discriminate.
Qed.

(** ** The callbacks *)

Section NodeFacts.

Context `{Externals} `{!VslamOps}.

Implicit Types (a : Arrival) (n : StereoVslamNode) (queue : list Callback).

Ltac run_callback :=
  unfold imageCb, configCb, vslam_addFrame, vslam_refine, node_publishPointclouds,
    when, try_CvBridge, bind, call, null_dereference, emit, ret, gets, modify;
  simpl.

(** An image that does not convert: the handler logs and returns. *)
Lemma imageCb_decode_error a n what :
  imgMsgToCv (l_image a) "mono8" = Throws (CvBridgeException what)
  ∨ (∃ left, imgMsgToCv (l_image a) "mono8" = Returns left
             ∧ imgMsgToCv (r_image a) "mono8" = Throws (CvBridgeException what)) →
  imageCb a n =
    (n, [ROS_INFO (In_callback (header_seq (l_cam_info a)));
         ROS_ERROR (Conversion_error what)], Ok tt).
Proof.
  intros [Hl | (left & Hl & Hr)]; run_callback.
  - by rewrite Hl.
  - by rewrite Hl, Hr.
Qed.

(** An exception of the cloud conversion leaves the callback. *)
Lemma imageCb_cloud_throws a n left right e :
  imgMsgToCv (l_image a) "mono8" = Returns left →
  imgMsgToCv (r_image a) "mono8" = Returns right →
  fromROSMsg (ptcloud_msg a) = Throws e →
  imageCb a n =
    (set_cam_model_ (fromCameraInfo (l_cam_info a) (r_cam_info a) (cam_model_ n)) n,
     [ROS_INFO (In_callback (header_seq (l_cam_info a)))], Thrown e).
Proof.
  intros Hl Hr Hc. run_callback. by rewrite Hl, Hr, Hc.
Qed.

(** A frame that [addFrame] rejects: nothing follows the call. *)
Lemma imageCb_rejected a n left right ptcloud vs :
  imgMsgToCv (l_image a) "mono8" = Returns left →
  imgMsgToCv (r_image a) "mono8" = Returns right →
  fromROSMsg (ptcloud_msg a) = Returns ptcloud →
  addFrame (cam_params_at a n) left right ptcloud (vslam_system_ n) = (false, vs) →
  imageCb a n =
    (set_vslam_system_ vs
       (set_cam_model_ (fromCameraInfo (l_cam_info a) (r_cam_info a) (cam_model_ n)) n),
     [ROS_INFO (In_callback (header_seq (l_cam_info a)));
      Call_addFrame (cam_params_at a n) left right ptcloud false], Ok tt).
Proof.
  intros Hl Hr Hc Hadd. unfold cam_params_at in *. run_callback.
  rewrite Hl, Hr, Hc. simpl. by rewrite Hadd.
Qed.

(** A frame that [addFrame] accepts: the events of the callback. *)
Lemma imageCb_accepted a n left right ptcloud vs :
  imgMsgToCv (l_image a) "mono8" = Returns left →
  imgMsgToCv (r_image a) "mono8" = Returns right →
  fromROSMsg (ptcloud_msg a) = Returns ptcloud →
  addFrame (cam_params_at a n) left right ptcloud (vslam_system_ n) = (true, vs) →
  let size := int_of_size_t (length (nodes (sba_ vs))) in
  ∃ n' display,
    imageCb a n =
      (n',
       [ROS_INFO (In_callback (header_seq (l_cam_info a)));
        Call_addFrame (cam_params_at a n) left right ptcloud true;
        Call_drawGraph (sba_ vs)]
       ++ (if (0 <? vo_tracks_subscribers a)%nat
           then [Publish_vo_tracks display (l_cam_info a)] else [])
       ++ (if refine_due size
           then [ROS_INFO (Running_large_SBA size); Call_refine] else []),
       Ok tt)
    ∧ detector_ n' = detector_ n.
Proof.
  intros Hl Hr Hc Hadd size. unfold cam_params_at in *. run_callback.
  rewrite Hl, Hr, Hc. simpl. rewrite Hadd. simpl. fold size.
  destruct (0 <? vo_tracks_subscribers a)%nat; simpl;
    destruct (0 <? pointcloud_subscribers a)%nat; simpl;
    try destruct (publishPointclouds _ _ _) as [sba pub]; simpl;
    destruct (refine_due size); simpl; eauto.
Qed.

Lemma refine_due_spec size :
  refine_due size = true ↔ 1 < size ∧ Z.rem size LARGE_SBA_INTERVAL = 0.
Proof.
  unfold refine_due. rewrite andb_true_iff, Z.ltb_lt, Z.eqb_eq. done.
Qed.

(** C1: after a frame that [addFrame] accepted, the callback calls
    [refine] exactly when the node count [size] it read satisfies
    [size > 1] and [size % LARGE_SBA_INTERVAL == 0]; the interval is 1, so
    this is [size > 1]: for the counts 1, 2, 3, 4 the test fails at 1 and
    holds at 2, 3 and 4. *)
Theorem refine_after_accepted_frame a n left right ptcloud vs :
  imgMsgToCv (l_image a) "mono8" = Returns left →
  imgMsgToCv (r_image a) "mono8" = Returns right →
  fromROSMsg (ptcloud_msg a) = Returns ptcloud →
  addFrame (cam_params_at a n) left right ptcloud (vslam_system_ n) = (true, vs) →
  let size := int_of_size_t (length (nodes (sba_ vs))) in
  LARGE_SBA_INTERVAL = 1
  ∧ (Call_refine ∈ (imageCb a n).1.2
     ↔ 1 < size ∧ Z.rem size LARGE_SBA_INTERVAL = 0)
  ∧ (Call_refine ∈ (imageCb a n).1.2 ↔ 1 < size)
  ∧ refine_due <$> [1; 2; 3; 4] = [false; true; true; true].
Proof.
  intros Hl Hr Hc Hadd size.
  destruct (imageCb_accepted a n left right ptcloud vs Hl Hr Hc Hadd)
    as (n' & display & -> & _).
  fold size. simpl.
  assert (Call_refine ∈
            ROS_INFO (In_callback (header_seq (l_cam_info a)))
            :: Call_addFrame (cam_params_at a n) left right ptcloud true
            :: Call_drawGraph (sba_ vs)
            :: (if (0 <? vo_tracks_subscribers a)%nat
                then [Publish_vo_tracks display (l_cam_info a)] else []) ++
               (if refine_due size
                then [ROS_INFO (Running_large_SBA size); Call_refine] else [])
          ↔ refine_due size = true) as Hiff.
  { rewrite !elem_of_cons, elem_of_app.
    destruct (0 <? vo_tracks_subscribers a)%nat, (refine_due size);
      rewrite ?elem_of_cons, ?elem_of_nil; intuition discriminate. }
  split; [done|]. split; [by rewrite Hiff, refine_due_spec|].
  split; [|done].
  rewrite Hiff, refine_due_spec. unfold LARGE_SBA_INTERVAL.
  rewrite Z.rem_1_r. intuition lia.
Qed.

(** C5 (as amended): an image that does not convert, the left one or the
    right one, is a local error: the callback logs it, returns without
    having called [addFrame] and without a change to the node, and the
    callbacks that follow run as they would have without it. *)
Theorem image_decode_error_is_local a n what queue :
  imgMsgToCv (l_image a) "mono8" = Throws (CvBridgeException what)
  ∨ (∃ left, imgMsgToCv (l_image a) "mono8" = Returns left
             ∧ imgMsgToCv (r_image a) "mono8" = Throws (CvBridgeException what)) →
  let logged :=
    [ROS_INFO (In_callback (header_seq (l_cam_info a)));
     ROS_ERROR (Conversion_error what)] in
  imageCb a n = (n, logged, Ok tt)
  ∧ (∀ cam_params left right ptcloud accepted,
       Call_addFrame cam_params left right ptcloud accepted ∉ (imageCb a n).1.2)
  ∧ spin (Image_callback a :: queue) n =
      (let '(n', t, r) := spin queue n in (n', logged ++ t, r)).
Proof.
  intros Hbad logged.
  pose proof (imageCb_decode_error a n what Hbad) as Hrun. fold logged in Hrun.
  split; [done|]. split.
  - intros cam_params left right ptcloud accepted. rewrite Hrun. simpl.
    unfold logged. rewrite !elem_of_cons, elem_of_nil. intuition discriminate.
  - simpl. unfold bind at 1. rewrite Hrun.
    by destruct (spin queue n) as [[n' t] r].
Qed.

(** C6: a frame for which [addFrame] returns false ends the callback at
    once: [refine] is not called, nothing is drawn or logged for the
    scheduler, and the map and its node count are what they were, given
    that [addFrame] itself leaves the map of a rejected frame alone. *)
Theorem rejected_frame_leaves_no_trace a n left right ptcloud :
  addFrame_rejection_leaves_no_trace →
  imgMsgToCv (l_image a) "mono8" = Returns left →
  imgMsgToCv (r_image a) "mono8" = Returns right →
  fromROSMsg (ptcloud_msg a) = Returns ptcloud →
  (addFrame (cam_params_at a n) left right ptcloud (vslam_system_ n)).1 = false →
  ∃ n',
    imageCb a n =
      (n', [ROS_INFO (In_callback (header_seq (l_cam_info a)));
            Call_addFrame (cam_params_at a n) left right ptcloud false], Ok tt)
    ∧ (Call_refine ∉ (imageCb a n).1.2)
    ∧ vslam_system_ n' =
        (addFrame (cam_params_at a n) left right ptcloud (vslam_system_ n)).2
    ∧ sba_ (vslam_system_ n') = sba_ (vslam_system_ n)
    ∧ length (nodes (sba_ (vslam_system_ n'))) = length (nodes (sba_ (vslam_system_ n))).
Proof.
  intros Hcontract Hl Hr Hc Hrej.
  destruct (addFrame (cam_params_at a n) left right ptcloud (vslam_system_ n))
    as [accepted vs] eqn:Hadd.
  simpl in Hrej. subst accepted.
  rewrite (imageCb_rejected a n left right ptcloud vs Hl Hr Hc Hadd).
  eexists. split; [done|]. simpl.
  assert (sba_ vs = sba_ (vslam_system_ n)) as Hsba.
  { specialize (Hcontract (cam_params_at a n) left right ptcloud (vslam_system_ n)).
    rewrite Hadd in Hcontract. by apply Hcontract. }
  split; [|by rewrite Hsba].
  rewrite !elem_of_cons, elem_of_nil. intuition discriminate.
Qed.

(** The detector handle is a member no callback assigns to. *)
Lemma imageCb_keeps_detector a n :
  detector_ (imageCb a n).1.1 = detector_ n
  ∧ (imageCb a n).2 ≠ NullDereference.
Proof.
  run_callback.
  destruct (imgMsgToCv (l_image a) "mono8") as [left|[what|what]]; simpl; [|done..].
  destruct (imgMsgToCv (r_image a) "mono8") as [right|[what|what]]; simpl; [|done..].
  destruct (fromROSMsg (ptcloud_msg a)) as [ptcloud|e]; simpl; [|done].
  destruct (addFrame _ _ _ _ _) as [[] vs]; simpl; [|done].
  destruct (0 <? vo_tracks_subscribers a)%nat; simpl;
    destruct (0 <? pointcloud_subscribers a)%nat; simpl;
    try destruct (publishPointclouds _ _ _) as [sba pub]; simpl;
    destruct (refine_due _); simpl; done.
Qed.

Lemma configCb_downcast config level n d :
  detector_ n = Some (IsAnyDetector d) →
  ∃ n', configCb config level n = (n', [], Ok tt)
        ∧ detector_ n' = Some (IsAnyDetector (update config d)).
Proof. intros Hd. run_callback. rewrite Hd. simpl. eauto. Qed.

Lemma spin_keeps_detector queue : ∀ n d,
  detector_ n = Some (IsAnyDetector d) →
  (∃ d', detector_ (spin queue n).1.1 = Some (IsAnyDetector d'))
  ∧ (spin queue n).2 ≠ NullDereference.
Proof.
  induction queue as [|cb queue IH]; intros n d Hd; simpl.
  - split; [eauto|done].
  - unfold bind.
    destruct cb as [a | config level]; simpl.
    + destruct (imageCb_keeps_detector a n) as [Hkeep Hres].
      destruct (imageCb a n) as [[n1 t1] r1]. simpl in *.
      destruct r1 as [[]|e|]; simpl; [|split; [rewrite Hkeep; eauto|done]|done].
      rewrite <- Hkeep in Hd. destruct (IH n1 d Hd) as [Hdet Hnull].
      by destruct (spin queue n1) as [[n2 t2] r2].
    + destruct (configCb_downcast config level n d Hd) as (n1 & -> & Hd1).
      destruct (IH n1 _ Hd1) as [Hdet Hnull].
      by destruct (spin queue n1) as [[n2 t2] r2].
Qed.

(** C10: the detector handle is built as an [AnyDetector] and no callback
    assigns to it, so that in every state the node reaches, from its
    constructor on through any queue of callbacks, the handle refers to an
    [AnyDetector]: the downcast of [configCb] is never null, and no
    callback of the run ends in a null dereference. *)
Theorem configCb_downcast_never_null
    (vocab_tree_file vocab_weights_file calonder_trees_file : string)
    (startup : StereoVslamNodeConfig) queue :
  let built :=
    StereoVslamNode_ctor vocab_tree_file vocab_weights_file calonder_trees_file startup in
  let run := spin queue built.1.1 in
  built.2 = Ok tt
  ∧ run.2 ≠ NullDereference
  ∧ is_Some (dynamic_cast_AnyDetector (detector_ run.1.1))
  ∧ ∀ config level, (configCb config level run.1.1).2 = Ok tt.
Proof.
  intros built run.
  assert (built.2 = Ok tt
          ∧ detector_ built.1.1 = Some (IsAnyDetector (update startup new_AnyDetector)))
    as [Hbuilt Hd].
  { subst built. unfold StereoVslamNode_ctor. run_callback. done. }
  destruct (spin_keeps_detector queue _ _ Hd) as [[d' Hd'] Hnull].
  fold run in Hd', Hnull.
  split; [done|]. split; [done|]. split.
  - rewrite Hd'. simpl. eauto.
  - intros config level.
    by destruct (configCb_downcast config level _ _ Hd') as (n' & -> & _).
Qed.

End NodeFacts.

(** ** The node in the small world *)

Section DemoFacts.

#[local] Existing Instance demo_externals.
#[local] Existing Instance demo_ops.

(** Frames fused with node counts 1, 2, 3 and 4: [refine] follows the
    second, the third and the fourth callback, not the first. *)
Example refine_schedule_four_frames :
  scheduler_view
    (spin (Image_callback <$> [good_arrival 1; good_arrival 2;
                               good_arrival 3; good_arrival 4]) demo_node).1.2
  = [Some 1; Some 2; None; Some 3; None; Some 4; None].
Proof. vm_compute. reflexivity. Qed.

(** Frames fused with node counts 1, 2 and 3: [refine] is called twice. *)
Example refine_twice_in_three_frames :
  length (filter (λ v, v = None)
            (scheduler_view
               (spin (Image_callback <$> [good_arrival 1; good_arrival 2; good_arrival 3])
                  demo_node).1.2))
  = 2%nat.
Proof. vm_compute. reflexivity. Qed.

(** A rejected frame and a frame with a bad image in between change
    nothing in the schedule. *)
Example refine_schedule_with_rejections :
  scheduler_view
    (spin (Image_callback <$> [good_arrival 1; empty_arrival 2; bad_image_arrival 3;
                               good_arrival 4; good_arrival 5]) demo_node).1.2
  = [Some 1; Some 2; Some 3; Some 4; None; Some 5; None].
Proof. vm_compute. reflexivity. Qed.

Lemma demo_accepts (seq : Z) n :
  addFrame (cam_params_at (good_arrival seq) n) demo_mat demo_mat [zero_point]
    (vslam_system_ n)
  = (true,
     (addFrame (cam_params_at (good_arrival seq) n) demo_mat demo_mat [zero_point]
        (vslam_system_ n)).2).
Proof. reflexivity. Defined.

Lemma refine_after_accepted_frame_witness :
  Call_refine ∈ (imageCb (good_arrival 2) (demo_node_after 1)).1.2
  ∧ (Call_refine ∉ (imageCb (good_arrival 1) demo_node).1.2).
Proof.
  pose proof (refine_after_accepted_frame (good_arrival 2) (demo_node_after 1)
                demo_mat demo_mat [zero_point] _
                eq_refl eq_refl eq_refl (demo_accepts 2 _)) as (_ & _ & Hsecond & _).
  pose proof (refine_after_accepted_frame (good_arrival 1) demo_node
                demo_mat demo_mat [zero_point] _
                eq_refl eq_refl eq_refl (demo_accepts 1 _)) as (_ & _ & Hfirst & _).
  split.
  - apply Hsecond. vm_compute. reflexivity.
  - intros Hin. apply Hfirst in Hin. vm_compute in Hin. discriminate.
Defined.

(** C5, as stated, fails for the cloud: an exception of the conversion of
    the point cloud is not logged by the callback and leaves it, and the
    callbacks behind it in the queue are not run. *)
Lemma cloud_decode_error_escapes :
  fromROSMsg (ptcloud_msg (bad_cloud_arrival 2)) = Throws (OtherException "bad fields")
  ∧ imageCb (bad_cloud_arrival 2) demo_node
    = (demo_node, [ROS_INFO (In_callback 2)], Thrown (OtherException "bad fields"))
  ∧ spin [Image_callback (bad_cloud_arrival 2); Image_callback (good_arrival 3)] demo_node
    = (demo_node, [ROS_INFO (In_callback 2)], Thrown (OtherException "bad fields")).
Proof. vm_compute. done. Qed.

Lemma image_decode_error_is_local_witness :
  imageCb (bad_image_arrival 3) demo_node
  = (demo_node,
     [ROS_INFO (In_callback 3); ROS_ERROR (Conversion_error "bad encoding")], Ok tt).
Proof.
  refine (proj1 (image_decode_error_is_local (bad_image_arrival 3) demo_node
                   "bad encoding" [] _)).
  right. exists tt. split; reflexivity.
Defined.

Lemma demo_addFrame_contract : addFrame_rejection_leaves_no_trace.
Proof.
  intros cam_params left right ptcloud vs. simpl.
  destruct ptcloud; [done|discriminate].
Defined.

Lemma rejected_frame_leaves_no_trace_witness :
  ∃ n', imageCb (empty_arrival 3) (demo_node_after 2)
        = (n', [ROS_INFO (In_callback 3);
                Call_addFrame (cam_params_at (empty_arrival 3) (demo_node_after 2))
                  tt tt [] false], Ok tt)
        ∧ length (nodes (sba_ (vslam_system_ n'))) = 2%nat.
Proof.
  destruct (rejected_frame_leaves_no_trace (empty_arrival 3) (demo_node_after 2) tt tt []
              demo_addFrame_contract eq_refl eq_refl eq_refl eq_refl)
    as (n' & Hrun & _ & _ & _ & Hcount).
  exists n'. split; [exact Hrun|]. rewrite Hcount. reflexivity.
Defined.

End DemoFacts.

(** ** More on the export *)

Section CloudExportMore.

Context {Node : Type} (default_point : PointXYZRGB).

Implicit Types (prjs : gmap Z Proj) (sba : SysSBA Node).

Lemma spec_lastFrame_unique prjs m1 m2 :
  spec_lastFrame prjs m1 → spec_lastFrame prjs m2 → m1 = m2.
Proof.
  intros [[Hv1 Hub1] | [Hn1 ->]] [[Hv2 Hub2] | [Hn2 ->]].
  - specialize (Hub1 _ Hv2). specialize (Hub2 _ Hv1). lia.
  - by destruct (Hn2 m1).
  - by destruct (Hn1 m2).
  - done.
Qed.

(** Two tracks with the same valid frames and the same answer to "is a
    valid projection a point-plane one" scan alike. *)
Lemma scan_determined prjs1 prjs2 :
  (∀ frame, valid_at prjs1 frame ↔ valid_at prjs2 frame) →
  (spec_pointplane prjs1 ↔ spec_pointplane prjs2) →
  scan prjs1 = scan prjs2.
Proof.
  intros Hvalid Hplane.
  destruct (scan_spec prjs1) as (pp1 & m1 & -> & Hpp1 & Hm1).
  destruct (scan_spec prjs2) as (pp2 & m2 & -> & Hpp2 & Hm2).
  assert (spec_lastFrame prjs2 m1) as Hm1'.
  { destruct Hm1 as [[Hv Hub] | [Hn ->]].
    - left. split; [by apply Hvalid|]. intros f Hf. apply Hub. by apply Hvalid.
    - right. split; [|done]. intros f Hf. apply (Hn f). by apply Hvalid. }
  rewrite (spec_lastFrame_unique _ _ _ Hm1' Hm2). f_equal.
  destruct pp1, pp2; intuition congruence.
Qed.

(** X1: the projections with [isValid = false] have no part in the scan:
    a track scans as the track made of its valid projections alone. *)
Theorem scan_ignores_invalid prjs :
  scan (filter (λ e, isValid e.2 = true) prjs) = scan prjs.
Proof.
  apply scan_determined.
  - intros f. unfold valid_at. split.
    + intros (q & Hq & Hv). apply map_lookup_filter_Some in Hq as [Hq _]. eauto.
    + intros (q & Hq & Hv). exists q. split; [|done].
      by apply map_lookup_filter_Some.
  - unfold spec_pointplane. split.
    + intros (f & q & Hq & Hv & Hc).
      apply map_lookup_filter_Some in Hq as [Hq _]. eauto 6.
    + intros (f & q & Hq & Hv & Hc). exists f, q. split; [|done].
      by apply map_lookup_filter_Some.
Qed.

(** X2: the last frame of the loop is never negative, bounds every
    valid frame index from above, and is 0 or the index of a valid
    projection: the least such number. *)
Theorem scan_lastframe_bounds prjs :
  0 ≤ (scan prjs).2
  ∧ (∀ frame, valid_at prjs frame → frame ≤ (scan prjs).2)
  ∧ ((scan prjs).2 = 0 ∨ valid_at prjs (scan prjs).2)
  ∧ ((∀ frame, valid_at prjs frame → frame ≤ 0) → (scan prjs).2 = 0).
Proof.
  destruct (scan_spec prjs) as (pp & m & -> & _ & Hm). simpl.
  destruct Hm as [[Hv Hub] | [Hn ->]].
  - split; [lia|]. split; [intros f Hf; specialize (Hub f Hf); lia|].
    split.
    + destruct (Z.max_spec 0 m) as [[? ->] | [? ->]]; [by right | by left].
    + intros Hneg. specialize (Hneg m Hv). lia.
  - split; [done|]. split; [|by auto]. intros f Hf. by destruct (Hn f).
Qed.

(** The five colours, packed. *)
Lemma rgb_packed_color_of pointplane lastframe :
  rgb_packed (color_of pointplane lastframe) =
    if negb pointplane then 0xFFFFFF
    else if lastframe =? 1 then 0xFF0000
    else if lastframe =? 2 then 0x00FF00
    else if lastframe =? 3 then 0x0000FF
    else 0x969696.
Proof.
  unfold color_of. destruct pointplane; simpl; [|done].
  by destruct (lastframe =? 1), (lastframe =? 2), (lastframe =? 3).
Qed.

(** X3: the colour of a track that is not skipped is one of five, and it
    is white exactly when no valid projection of the track is a
    point-plane one. *)
Theorem exported_color_classes sba i trk :
  tracks sba !! i = Some trk →
  (2 ≤ size (projections trk))%nat →
  ∃ p, exported default_point sba !! i = Some p
       ∧ rgb p ∈ [0xFFFFFF; 0xFF0000; 0x00FF00; 0x0000FF; 0x969696]
       ∧ (rgb p = 0xFFFFFF ↔ ¬ spec_pointplane (projections trk)).
Proof.
  intros Hi Hge. exists (export_point trk).
  split; [by rewrite (exported_lookup _ _ _ _ Hi), slot_retained|].
  unfold export_point.
  destruct (scan_spec (projections trk)) as (pp & m & -> & Hpp & _). simpl.
  rewrite rgb_packed_color_of. destruct pp; simpl.
  - split; [repeat case_match; rewrite !elem_of_cons; auto 10|].
    split; [repeat case_match; discriminate|].
    intros Hno. destruct Hno. by apply Hpp.
  - split; [rewrite !elem_of_cons; auto|]. split; [|done].
    intros _ Hplane. apply Hpp in Hplane. discriminate.
Qed.

(** An empty map still sends a message, without points. *)
Lemma empty_map_export sba (pub : Publisher) :
  tracks sba = [] →
  publishPointclouds default_point sba pub
  = (sba, pub ++ [ {| header_frame_id := "/pgraph"; points := [] |} ]).
Proof. intros Hempty. by rewrite publishPointclouds_eq, Hempty. Qed.

(** The export run again on the map it handed back sends the same
    cloud again, behind everything that was published before. *)
Lemma export_twice sba (pub : Publisher) :
  let first := publishPointclouds default_point sba pub in
  let cloud_out :=
    {| header_frame_id := "/pgraph"; points := exported default_point sba |} in
  publishPointclouds default_point first.1 first.2 = (sba, pub ++ [cloud_out; cloud_out]).
Proof.
  simpl. rewrite !publishPointclouds_eq. simpl.
  by rewrite exported_eq, <- app_assoc.
Qed.

(** X6: the entries follow the tracks: tracks added behind the ones of a
    map add their entries behind the cloud of that map, whatever becomes
    of the nodes. *)
Theorem export_of_appended_tracks sba (nodes' nodes'' : list Node) (new : list Track) :
  exported default_point {| nodes := nodes'; tracks := tracks sba ++ new |}
  = exported default_point sba
    ++ exported default_point {| nodes := nodes''; tracks := new |}.
Proof. rewrite !exported_eq. simpl. apply fmap_app. Qed.

End CloudExportMore.

(** ** The packed colour and the narrowed position *)

Lemma lor_shiftl_add (a b k : Z) :
  0 ≤ k → 0 ≤ b < 2 ^ k → Z.lor (Z.shiftl a k) b = a * 2 ^ k + b.
Proof.
  intros Hk Hb.
  assert (Z.land (Z.shiftl a k) b = 0) as Hdisjoint.
  { apply Z.bits_inj'. intros n Hn. rewrite Z.land_spec, Z.bits_0.
    destruct (Z.lt_ge_cases n k) as [Hlt | Hge].
    - by rewrite Z.shiftl_spec_low.
    - rewrite <- (Z.mod_small b (2 ^ k)) by lia.
      rewrite Z.mod_pow2_bits_high by lia. apply andb_false_r. }
  rewrite <- Z.lxor_lor, <- Z.add_nocarry_lxor by done.
  by rewrite Z.shiftl_mul_pow2.
Qed.

Lemma rgb_packed_sum (r g b : Z) :
  0 ≤ g < 256 → 0 ≤ b < 256 →
  rgb_packed (r, g, b) = r * 65536 + g * 256 + b.
Proof.
  intros Hg Hb. unfold rgb_packed.
  rewrite (Z.shiftl_mul_pow2 g 8) by lia.
  rewrite (lor_shiftl_add r (g * 2 ^ 8) 16) by lia.
  replace (r * 2 ^ 16 + g * 2 ^ 8) with ((r * 256 + g) * 2 ^ 8) by lia.
  rewrite <- (Z.shiftl_mul_pow2 (r * 256 + g) 8) by lia.
  rewrite lor_shiftl_add by lia. lia.
Qed.

(** X4: three bytes packed as [(r << 16) | (g << 8) | b] fill the low 24
    bits of the integer, and shifting and masking gives each of them
    back. *)
Theorem rgb_packed_round_trip (r g b : Z) :
  0 ≤ r < 256 → 0 ≤ g < 256 → 0 ≤ b < 256 →
  0 ≤ rgb_packed (r, g, b) < 2 ^ 24
  ∧ Z.shiftr (rgb_packed (r, g, b)) 16 = r
  ∧ Z.land (Z.shiftr (rgb_packed (r, g, b)) 8) 255 = g
  ∧ Z.land (rgb_packed (r, g, b)) 255 = b.
Proof.
  intros Hr Hg Hb. rewrite rgb_packed_sum by done.
  change 255 with (Z.ones 8).
  rewrite !Z.land_ones, !Z.shiftr_div_pow2 by lia.
  change (2 ^ 16) with 65536. change (2 ^ 8) with 256.
  change (2 ^ 24) with 16777216.
  repeat split; try lia.
  - symmetry. apply (Z.div_unique _ _ _ (g * 256 + b)); lia.
  - assert ((r * 65536 + g * 256 + b) / 256 = r * 256 + g) as ->.
    { symmetry. apply (Z.div_unique _ _ _ b); lia. }
    symmetry. apply (Z.mod_unique _ _ r); lia.
  - symmetry. apply (Z.mod_unique _ _ (r * 256 + g)); lia.
Qed.

Lemma rgb_packed_round_trip_witness :
  Z.shiftr (rgb_packed (150, 150, 150)) 16 = 150.
Proof.
  refine (proj1 (proj2 (rgb_packed_round_trip 150 150 150 _ _ _))); lia.
Defined.

(** Rounding to binary32 treats the two signs alike. *)
Lemma binary_round_negb (s : bool) (m : positive) (e : Z) :
  binary_round 24 128 (negb s) m e = SFopp (binary_round 24 128 s m e).
Proof.
  unfold binary_round, binary_round_aux.
  destruct (shl_align _ _ _) as [mz ez].
  destruct (shr_fexp _ _ _ _ _) as [mrs' e'].
  destruct (shr_fexp _ _ _ _ _) as [mrs'' e''].
  destruct (shr_m mrs''); simpl; [done| |done].
  by destruct (_ <=? _).
Qed.

Lemma double_to_float_opp (d : double) :
  double_to_float (- d) = SFopp (double_to_float d).
Proof.
  unfold double_to_float. rewrite opp_spec.
  destruct (Prim2SF d) as [s|s| |s m e]; simpl; try done.
  apply binary_round_negb.
Qed.

(** X5: narrowing commutes with the change of sign: the exported [y] and
    [z] are the exact negations of the track's [point(0)] and [point(1)]
    as floats, and the exported [x] is its [point(2)] as a float. *)
Theorem export_point_position (trk : Track) :
  x (export_point trk) = double_to_float (p2 (point trk))
  ∧ y (export_point trk) = SFopp (double_to_float (p0 (point trk)))
  ∧ z (export_point trk) = SFopp (double_to_float (p1 (point trk))).
Proof.
  unfold export_point. destruct (scan (projections trk)). simpl.
  by rewrite !double_to_float_opp.
Qed.

(** ** More on the callbacks *)

Section NodeMore.

Context `{Externals} `{!VslamOps}.

Implicit Types (a : Arrival) (n : StereoVslamNode) (queue : list Callback).

Ltac run_callback :=
  unfold imageCb, configCb, vslam_addFrame, vslam_refine, node_publishPointclouds,
    when, try_CvBridge, bind, call, null_dereference, emit, ret, gets, modify;
  simpl.

(** X7: the node count goes through a 32-bit [int]: below [2^31] nodes
    the callback reads the count itself, and the test of the scheduler
    holds exactly when the count modulo [2^32] is at least 2 and below
    [2^31]. *)
Theorem refine_due_of_node_count (count : nat) :
  (Z.of_nat count < 2 ^ 31 → int_of_size_t count = Z.of_nat count)
  ∧ - 2 ^ 31 ≤ int_of_size_t count < 2 ^ 31
  ∧ (refine_due (int_of_size_t count) = true
     ↔ 2 ≤ Z.of_nat count mod 2 ^ 32 < 2 ^ 31).
Proof.
  unfold int_of_size_t. rewrite refine_due_spec. unfold LARGE_SBA_INTERVAL.
  rewrite Z.rem_1_r.
  change (2 ^ 31) with 2147483648. change (2 ^ 32) with 4294967296.
  pose proof (Nat2Z.is_nonneg count).
  repeat split; Z.div_mod_to_equations; lia.
Qed.

Lemma set_sba_same (vs : VslamSystem) : set_sba_ (sba_ vs) vs = vs.
Proof. by destruct vs. Qed.

(** X8: the node after a frame that [addFrame] accepted: the cloud, if
    anyone listens, is the export of the map as [addFrame] left it, sent
    before the refinement; the system is that of [addFrame], refined when
    the scheduler says so; the camera model is the one of this frame. *)
Theorem imageCb_accepted_state a n left right ptcloud vs :
  imgMsgToCv (l_image a) "mono8" = Returns left →
  imgMsgToCv (r_image a) "mono8" = Returns right →
  fromROSMsg (ptcloud_msg a) = Returns ptcloud →
  addFrame (cam_params_at a n) left right ptcloud (vslam_system_ n) = (true, vs) →
  let size := int_of_size_t (length (nodes (sba_ vs))) in
  let n' := (imageCb a n).1.1 in
  pointcloud_pub_ n' =
    (if (0 <? pointcloud_subscribers a)%nat
     then pointcloud_pub_ n
          ++ [ {| header_frame_id := "/pgraph";
                  points := exported default_PointXYZRGB (sba_ vs) |} ]
     else pointcloud_pub_ n)
  ∧ vslam_system_ n' = (if refine_due size then refine vs else vs)
  ∧ cam_model_ n' = fromCameraInfo (l_cam_info a) (r_cam_info a) (cam_model_ n)
  ∧ detector_ n' = detector_ n.
Proof.
  intros Hl Hr Hc Hadd size n'. subst n'. unfold cam_params_at in *. run_callback.
  rewrite Hl, Hr, Hc. simpl. rewrite Hadd. simpl. fold size.
  rewrite exported_eq.
  destruct (0 <? vo_tracks_subscribers a)%nat; simpl;
    destruct (0 <? pointcloud_subscribers a)%nat; simpl;
    rewrite ?publishPointclouds_eq; simpl;
    destruct (refine_due size); simpl; by rewrite ?set_sba_same.
Qed.

(** What one callback adds to the cloud publisher. *)
Lemma imageCb_publisher a n :
  ∃ new, pointcloud_pub_ (imageCb a n).1.1 = pointcloud_pub_ n ++ new
         ∧ Forall (λ msg, header_frame_id msg = "/pgraph"%string) new
         ∧ (length new ≤ 1)%nat.
Proof.
  assert (∀ pub : Publisher,
            ∃ new, pub = pub ++ new
                   ∧ Forall (λ msg, header_frame_id msg = "/pgraph"%string) new
                   ∧ (length new ≤ 1)%nat) as Hnothing.
  { intros pub. exists []. rewrite app_nil_r.
    split; [done|]. split; [constructor|simpl; lia]. }
  run_callback.
  destruct (imgMsgToCv (l_image a) "mono8") as [left|[what|what]]; simpl;
    [|apply Hnothing..].
  destruct (imgMsgToCv (r_image a) "mono8") as [right|[what|what]]; simpl;
    [|apply Hnothing..].
  destruct (fromROSMsg (ptcloud_msg a)) as [ptcloud|e]; simpl; [|apply Hnothing].
  destruct (addFrame _ _ _ _ _) as [[] vs]; simpl; [|apply Hnothing].
  destruct (0 <? vo_tracks_subscribers a)%nat; simpl;
    destruct (0 <? pointcloud_subscribers a)%nat; simpl;
    rewrite ?publishPointclouds_eq; simpl;
    destruct (refine_due _); simpl;
    first [ apply Hnothing
          | eexists [_]; split; [done|]; split; [by repeat constructor|done] ].
Qed.

Lemma configCb_publisher config level n :
  pointcloud_pub_ (configCb config level n).1.1 = pointcloud_pub_ n.
Proof.
  run_callback. by destruct (dynamic_cast_AnyDetector (detector_ n)).
Qed.

(** X12: whatever the callbacks and however they end, the cloud
    publisher only grows: what was published stays, each callback adds at
    most one cloud, and every cloud is in the frame ["/pgraph"]. *)
Theorem spin_publishes_pgraph_clouds queue : ∀ n,
  ∃ new, pointcloud_pub_ (spin queue n).1.1 = pointcloud_pub_ n ++ new
         ∧ Forall (λ msg, header_frame_id msg = "/pgraph"%string) new
         ∧ (length new ≤ length queue)%nat.
Proof.
  induction queue as [|cb queue IH]; intros n; simpl.
  - exists []. by rewrite app_nil_r.
  - assert (∃ new, pointcloud_pub_ (dispatch cb n).1.1 = pointcloud_pub_ n ++ new
                   ∧ Forall (λ msg, header_frame_id msg = "/pgraph"%string) new
                   ∧ (length new ≤ 1)%nat) as (new1 & Hpub1 & Hall1 & Hlen1).
    { destruct cb as [a | config level]; simpl.
      - apply imageCb_publisher.
      - exists []. rewrite app_nil_r, configCb_publisher.
        split; [done|]. split; [constructor|simpl; lia]. }
    unfold bind. destruct (dispatch cb n) as [[n1 t1] r1]. simpl in Hpub1.
    destruct r1 as [[]|e|]; simpl; [|exists new1; split; [done|split; [done|lia]]..].
    destruct (IH n1) as (new2 & Hpub2 & Hall2 & Hlen2).
    destruct (spin queue n1) as [[n2 t2] r2]. simpl in *.
    exists (new1 ++ new2). rewrite Hpub2, Hpub1, app_assoc.
    split; [done|]. split; [by apply Forall_app|].
    rewrite length_app. lia.
Qed.



Lemma tally_app {A} (f : A → bool) (t1 t2 : list A) :
  tally f (t1 ++ t2) = (tally f t1 + tally f t2)%nat.
Proof. unfold tally. by rewrite filter_app, length_app. Qed.

Lemma tally_cons {A} (f : A → bool) (e : A) (t : list A) :
  tally f (e :: t) = ((if f e then 1 else 0) + tally f t)%nat.
Proof.
  unfold tally. rewrite filter_cons.
  destruct (f e); by case_decide.
Qed.

Ltac close_trace_shape :=
  eexists; split; [reflexivity|];
  rewrite ?tally_cons; unfold tally; simpl;
  repeat split; try lia;
  try (intros [msg Hin]; rewrite ?elem_of_cons, ?elem_of_nil in Hin;
       intuition discriminate);
  try (intros Hin;
       first [ reflexivity
             | rewrite ?elem_of_cons, ?elem_of_nil in Hin; intuition discriminate ]).

Lemma imageCb_trace_cases a n :
  ∃ t, (imageCb a n).1.2 = ROS_INFO (In_callback (header_seq (l_cam_info a))) :: t
       ∧ (tally is_refine t ≤ tally is_accepted t)%nat
       ∧ (tally is_accepted t ≤ tally is_addFrame t)%nat
       ∧ (tally is_addFrame t ≤ 1)%nat
       ∧ ((∃ msg, ROS_ERROR msg ∈ t) → tally is_addFrame t = 0%nat)
       ∧ (Call_refine ∈ t → last t = Some Call_refine).
Proof.
  run_callback.
  destruct (imgMsgToCv (l_image a) "mono8") as [left|[what|what]]; simpl;
    [|close_trace_shape..].
  destruct (imgMsgToCv (r_image a) "mono8") as [right|[what|what]]; simpl;
    [|close_trace_shape..].
  destruct (fromROSMsg (ptcloud_msg a)) as [ptcloud|e]; simpl;
    [|close_trace_shape].
  destruct (addFrame _ _ _ _ _) as [[] vs]; simpl; [|close_trace_shape].
  destruct (0 <? vo_tracks_subscribers a)%nat; simpl;
    destruct (0 <? pointcloud_subscribers a)%nat; simpl;
    try destruct (publishPointclouds _ _ _) as [sba pub]; simpl;
    destruct (refine_due _); simpl; close_trace_shape.
Qed.

(** X10: one image callback logs its sequence number first, calls
    [addFrame] at most once and never once it has logged an error, and
    calls [refine] at most once, as the last thing it does and only
    after an [addFrame] that accepted the frame. *)
Theorem imageCb_trace_shape a n :
  ∃ t, (imageCb a n).1.2 = ROS_INFO (In_callback (header_seq (l_cam_info a))) :: t
       ∧ (tally is_refine t ≤ tally is_accepted t)%nat
       ∧ (tally is_accepted t ≤ tally is_addFrame t)%nat
       ∧ (tally is_addFrame t ≤ 1)%nat
       ∧ ((∃ msg, ROS_ERROR msg ∈ t) → tally is_addFrame t = 0%nat)
       ∧ (Call_refine ∈ t → last t = Some Call_refine).
Proof. apply imageCb_trace_cases. Qed.

(** X9: an exception of the conversion of the point cloud leaves the
    callback: the camera model of the frame is already set, nothing but
    the sequence number is logged, [addFrame] is not called, the map and
    the publisher are untouched, and no callback behind it is run. *)
Theorem cloud_exception_leaves_callback a n left right e queue :
  imgMsgToCv (l_image a) "mono8" = Returns left →
  imgMsgToCv (r_image a) "mono8" = Returns right →
  fromROSMsg (ptcloud_msg a) = Throws e →
  let n' :=
    set_cam_model_ (fromCameraInfo (l_cam_info a) (r_cam_info a) (cam_model_ n)) n in
  let logged := [ROS_INFO (In_callback (header_seq (l_cam_info a)))] in
  imageCb a n = (n', logged, Thrown e)
  ∧ spin (Image_callback a :: queue) n = (n', logged, Thrown e)
  ∧ vslam_system_ n' = vslam_system_ n
  ∧ pointcloud_pub_ n' = pointcloud_pub_ n.
Proof.
  intros Hl Hr Hc n' logged.
  pose proof (imageCb_cloud_throws a n left right e Hl Hr Hc) as Hrun.
  split; [done|]. split; [|done].
  simpl. unfold bind at 1. by rewrite Hrun.
Qed.

Lemma configCb_trace config level n : (configCb config level n).1.2 = [].
Proof. run_callback. by destruct (dynamic_cast_AnyDetector (detector_ n)). Qed.

(** X11: in any run of the callbacks, whether it ends well or not,
    [refine] was called at most as often as a frame was accepted, and
    [addFrame] at most once for every image callback of the queue. *)
Theorem spin_refines_accepted_frames queue : ∀ n,
  (tally is_refine (spin queue n).1.2 ≤ tally is_accepted (spin queue n).1.2)%nat
  ∧ (tally is_accepted (spin queue n).1.2 ≤ tally is_addFrame (spin queue n).1.2)%nat
  ∧ (tally is_addFrame (spin queue n).1.2 ≤ tally is_image_callback queue)%nat.
Proof.
  induction queue as [|cb queue IH]; intros n; simpl.
  - unfold tally. simpl. lia.
  - assert ((tally is_refine (dispatch cb n).1.2
             ≤ tally is_accepted (dispatch cb n).1.2)%nat
            ∧ (tally is_accepted (dispatch cb n).1.2
               ≤ tally is_addFrame (dispatch cb n).1.2)%nat
            ∧ (tally is_addFrame (dispatch cb n).1.2
               ≤ if is_image_callback cb then 1 else 0)%nat) as (Hr1 & Ha1 & Hf1).
    { destruct cb as [a | config level]; simpl.
      - destruct (imageCb_trace_cases a n) as (t & -> & Hr & Ha & Hf & _).
        rewrite !tally_cons. simpl. lia.
      - rewrite configCb_trace. unfold tally. simpl. lia. }
    rewrite (tally_cons is_image_callback).
    unfold bind. destruct (dispatch cb n) as [[n1 t1] r1]. simpl in Hr1, Ha1, Hf1.
    destruct r1 as [[]|e|]; simpl; [|lia..].
    destruct (IH n1) as (Hr2 & Ha2 & Hf2).
    destruct (spin queue n1) as [[n2 t2] r2]. simpl in *.
    rewrite !tally_app. lia.
Qed.

End NodeMore.

(** ** More of the node in the small world *)

Section DemoMore.

#[local] Existing Instance demo_externals.
#[local] Existing Instance demo_ops.

Lemma cloud_exception_leaves_callback_witness :
  spin [Image_callback (bad_cloud_arrival 2); Image_callback (good_arrival 3)] demo_node
  = (demo_node, [ROS_INFO (In_callback 2)], Thrown (OtherException "bad fields")).
Proof.
  exact (proj1 (proj2
    (cloud_exception_leaves_callback (bad_cloud_arrival 2) demo_node demo_mat demo_mat _
       [Image_callback (good_arrival 3)] eq_refl eq_refl eq_refl))).
Defined.

Lemma exported_color_classes_witness :
  ∃ p, exported zero_point example_sba !! 1%nat = Some p
       ∧ rgb p ∈ [0xFFFFFF; 0xFF0000; 0x00FF00; 0x0000FF; 0x969696].
Proof.
  destruct (exported_color_classes zero_point example_sba 1 plain_track)
    as (p & Hp & Hin & _).
  - reflexivity.
  - vm_compute. lia.
  - exists p. split; [exact Hp | exact Hin].
Defined.

Lemma imageCb_accepted_state_witness :
  length (pointcloud_pub_ (imageCb (good_arrival 1) demo_node).1.1) = 1%nat.
Proof.
  pose proof (imageCb_accepted_state (good_arrival 1) demo_node
                demo_mat demo_mat [zero_point] _
                eq_refl eq_refl eq_refl (demo_accepts 1 _)) as (Hpub & _).
  rewrite Hpub. reflexivity.
Defined.


(** The program with its three files and two frames to fuse. *)
Example main_runs :
  let run :=
    main demo_ros_init ["stereo_vslam"; "tree"; "weights"; "calonder"]%string demo_config
      (Image_callback <$> [good_arrival 1; good_arrival 2]) in
  stdout run = [] ∧ exit run = Exit_status 0
  ∧ scheduler_view (trace run) = [Some 1; Some 2; None].
Proof. vm_compute. done. Qed.

End DemoMore.
